(** * Reconciliation of firewall policies and route tables

    A shallow embedding of [firewall_manager.py] and [route_manager.py]:
    the two command line tools that load a YAML document, validate it,
    compare it with the state held by the cloud provider and issue
    create and update calls, optionally as a dry run.

    The provider (boto3 clients and resources) is an interface; the code
    of the two tools is written against it in a small monad that threads
    the provider state, records every API call and every console line,
    and carries Python exceptions and [sys.exit]. *)

From Stdlib Require Import String Ascii ZArith DecimalString.
From stdpp Require Import base strings gmap list.

Open Scope string_scope.
Open Scope list_scope.

(** ** Python values used by both tools *)

Module Py.

(** [str.upper] and [str.lower], on the ASCII letters.  Strings are
    byte strings here; letters outside ASCII are left as they are. *)
Definition upper_ascii (c : ascii) : ascii :=
  let n := nat_of_ascii c in
  if Nat.leb 97 n && Nat.leb n 122 then ascii_of_nat (n - 32) else c.

Definition lower_ascii (c : ascii) : ascii :=
  let n := nat_of_ascii c in
  if Nat.leb 65 n && Nat.leb n 90 then ascii_of_nat (n + 32) else c.

Fixpoint upper (s : string) : string :=
  match s with
  | EmptyString => EmptyString
  | String c s' => String (upper_ascii c) (upper s')
  end.

Fixpoint lower (s : string) : string :=
  match s with
  | EmptyString => EmptyString
  | String c s' => String (lower_ascii c) (lower s')
  end.

(** [s.startswith(p)]. *)
Definition startswith (s p : string) : bool := String.prefix p s.

(** Truth value of an optional string: [None] and the empty string are
    false. *)
Definition truthy (o : option string) : bool :=
  match o with
  | Some (String _ _) => true
  | _ => false
  end.

(** [o or d] for an optional string [o] and a string [d]. *)
Definition or_else (o : option string) (d : string) : string :=
  match o with
  | Some (String c s) => String c s
  | _ => d
  end.

(** [str(n)] for an integer. *)
Definition str_of_int (n : Z) : string := NilZero.string_of_int (Z.to_int n).

(** The double quote character, for the text of generated rules. *)
Definition dquote : string := String (ascii_of_nat 34) EmptyString.

(** [sep.join(l)]. *)
Fixpoint join (sep : string) (l : list string) : string :=
  match l with
  | [] => ""
  | [x] => x
  | x :: l' => x +:+ sep +:+ join sep l'
  end.

(** Exceptions the tools tell apart: botocore's [ClientError] with its
    error code, [NoCredentialsError], and any other [Exception]. *)
Inductive exn : Type :=
| ClientError (code : string)
| NoCredentialsError
| OtherException (what : string).

(** How a piece of code ends: it returns, an exception leaves it, or
    [sys.exit] was called. *)
Inductive outcome (A : Type) : Type :=
| Return (a : A)
| Raise (e : exn)
| SysExit (code : Z).
Global Arguments Return {A} a.
Global Arguments Raise {A} e.
Global Arguments SysExit {A} code.


Section Monad.
(** [S]: provider state; [C]: API calls; [L]: console lines. *)
Context {S C L : Type}.

(** What a run leaves behind, in order. *)
Inductive event : Type :=
| Call (c : C) (failed : option exn)
| Say (l : L).

Definition M (A : Type) : Type := S → outcome A * S * list event.

Definition ret {A} (a : A) : M A := λ s, (Return a, s, []).
Definition raise {A} (e : exn) : M A := λ s, (Raise e, s, []).
Definition sys_exit {A} (c : Z) : M A := λ s, (SysExit c, s, []).
Definition say (l : L) : M unit := λ s, (Return tt, s, [Say l]).

Definition bind {A B} (m : M A) (f : A → M B) : M B :=
  λ s,
    match m s with
    | (Return a, s', t) =>
        match f a s' with
        | (o, s'', t') => (o, s'', t ++ t')
        end
    | (Raise e, s', t) => (Raise e, s', t)
    | (SysExit c, s', t) => (SysExit c, s', t)
    end.

(** [try: m except: h], where [h] decides which exceptions it takes
    ([None]: not caught here). *)
Definition try_except {A} (m : M A) (h : exn → option (M A)) : M A :=
  λ s,
    match m s with
    | (Raise e, s', t) =>
        match h e with
        | Some k =>
            match k s' with
            | (o, s'', t') => (o, s'', t ++ t')
            end
        | None => (Raise e, s', t)
        end
    | r => r
    end.

(** A read-only API call: the provider answers from its state. *)
Definition query {A} (c : C) (f : S → exn + A) : M A :=
  λ s,
    match f s with
    | inl e => (Raise e, s, [Call c (Some e)])
    | inr a => (Return a, s, [Call c None])
    end.

(** A mutating API call: the provider answers and moves on. *)
Definition request (c : C) (f : S → option exn * S) : M unit :=
  λ s,
    match f s with
    | (Some e, s') => (Raise e, s', [Call c (Some e)])
    | (None, s') => (Return tt, s', [Call c None])
    end.

(** The API calls of a run, in order. *)
Fixpoint calls (t : list event) : list C :=
  match t with
  | [] => []
  | Call c _ :: t' => c :: calls t'
  | Say _ :: t' => calls t'
  end.

(** The console lines of a run, in order. *)
Fixpoint console (t : list event) : list L :=
  match t with
  | [] => []
  | Call _ _ :: t' => console t'
  | Say l :: t' => l :: console t'
  end.
End Monad.

Global Arguments event : clear implicits.
Global Arguments M : clear implicits.


End Py.

Import Py.

Notation "'let*' x := m 'in' k" := (bind m (λ x, k))
  (at level 10, x name, m at level 100, k at level 200, only parsing).

(** ** firewall_manager.py *)

Module firewall_manager.

(** Model for a firewall rule. *)
Record FirewallRule : Type := {
  name : string;
  priority : Z;
  action : string;
  source : string;
  destination : string;
  protocol : string;
  description : option string
}.

(** Model for a firewall policy configuration. *)
Record FirewallPolicy : Type := {
  policy_name : string;
  policy_description : option string;
  rules : list FirewallRule
}.

(** Model for the complete firewall configuration. *)
Record FirewallConfiguration : Type := {
  policies : list FirewallPolicy
}.

(** Calls on the network-firewall client and on the sts client, with
    the arguments that vary; [Capacity] and [Type] of a rule group and
    the default actions of a policy are the constants of the source. *)
Inductive api : Type :=
| DescribeFirewallPolicy (FirewallPolicyName : string)
| CreateFirewallPolicy (FirewallPolicyName : string)
    (StatefulRuleGroupReferences : list string) (Description : string)
| UpdateFirewallPolicy (FirewallPolicyName : string)
    (StatefulRuleGroupReferences : list string) (Description : string)
| CreateRuleGroup (RuleGroupName : string) (Type_ : string) (Capacity : Z)
    (RulesString : string)
| ListFirewallPolicies
| GetCallerIdentity.

(** Create and update calls change what the provider holds. *)
Definition mutating (c : api) : bool :=
  match c with
  | CreateFirewallPolicy _ _ _ | UpdateFirewallPolicy _ _ _
  | CreateRuleGroup _ _ _ _ => true
  | DescribeFirewallPolicy _ | ListFirewallPolicies | GetCallerIdentity => false
  end.

(** The provider behind the two clients.  A described policy is the
    dictionary under the key FirewallPolicy of the response; the caller
    identity is the entry Account of the response, when it has one. *)
Record provider : Type := {
  state : Type;
  describe_firewall_policy : state → string → exn + list (string * string);
  create_firewall_policy_api :
    state → string → list string → string → option exn * state;
  update_firewall_policy_api :
    state → string → list string → string → option exn * state;
  create_rule_group_api :
    state → string → string → Z → string → option exn * state;
  list_firewall_policies_api : state → exn + list (string * string);
  get_caller_identity : state → exn + option string
}.

(** Lines printed on the console. *)
Inductive line : Type :=
| CredentialsNotFound
| ConfigFileNotFound
| ConfigInvalidYAML
| ConfigLoadFailed
| CreatedPolicy (n : string)
| FailedCreatePolicy (n : string)
| UpdatedPolicy (n : string)
| FailedUpdatePolicy (n : string)
| CreatedRuleGroup (g : string)
| FailedCreateRuleGroup (g : string)
| FailedListPolicies
| Validating
| InvalidAction (a : string)
| InvalidProtocol (p : string)
| ValidationPassed
| Applying
| DryRunMode
| ProcessingPolicy (n : string)
| WouldUpdatePolicy (n : string)
| WouldCreatePolicy (n : string)
| SummaryHeader
| Summary (succeeded total : nat)
| ListingPolicies
| PoliciesTable (rows : list (string * string))
| NoPoliciesFound
| LoadingConfiguration (path : string)
| ConfigurationValid
| DryRunCompleted
| AppliedSuccessfully
| FailedToApply.

(** What reading and parsing the configuration file gives. *)
Inductive load_result : Type :=
| Loaded (c : FirewallConfiguration)
| FileNotFoundError
| YAMLError
| LoadException.

(** The command line; [region_arg] is the option region, and [verbose]
    only sets the level of the log. *)
Record arguments : Type := {
  config : string;
  region_arg : string;
  dry_run : bool;
  validate_only : bool;
  list_policies : bool;
  verbose : bool
}.

(** [_convert_rule_to_suricata]. *)
Definition _convert_rule_to_suricata (rule : FirewallRule) : string :=
  let action := if String.eqb (upper (action rule)) "DROP" then "drop" else "alert" in
  let source := if String.eqb (upper (source rule)) "ANY" then "any" else source rule in
  let destination :=
    if String.eqb (upper (destination rule)) "ANY" then "any" else destination rule in
  let protocol :=
    if String.eqb (upper (protocol rule)) "ANY" then "any" else lower (protocol rule) in
  action +:+ " " +:+ protocol +:+ " " +:+ source +:+ " any -> " +:+ destination
    +:+ " any (msg:" +:+ dquote +:+ or_else (description rule) (name rule) +:+ dquote
    +:+ "; sid:" +:+ str_of_int (priority rule) +:+ ";)".

(** [_is_valid_action] and [_is_valid_protocol]. *)
Definition _is_valid_action (action : string) : bool :=
  bool_decide (upper action ∈ ["ALLOW"; "DROP"; "ALERT"]).

Definition _is_valid_protocol (protocol : string) : bool :=
  bool_decide (upper protocol ∈ ["TCP"; "UDP"; "ANY"; "ICMP"]).

Section Manager.
(** One [FirewallManager]: its clients talk to [P], in [region]. *)
Variable P : provider.
Variable region : string.

Local Abbreviation M := (Py.M (state P) api line).

(** [FirewallManager.__init__]: [boto] is what constructing the client
    raises, if anything. *)
Definition __init__ (boto : option exn) : M unit :=
  match boto with
  | None => ret tt
  | Some NoCredentialsError =>
      let* _ := say CredentialsNotFound in
      sys_exit 1
  | Some e => raise e
  end.

(** [load_configuration]: every failure ends the process. *)
Definition load_configuration (file : load_result) : M FirewallConfiguration :=
  match file with
  | Loaded c => ret c
  | FileNotFoundError =>
      let* _ := say ConfigFileNotFound in
      sys_exit 1
  | YAMLError =>
      let* _ := say ConfigInvalidYAML in
      sys_exit 1
  | LoadException =>
      let* _ := say ConfigLoadFailed in
      sys_exit 1
  end.

(** [get_firewall_policy]: [None] when the provider does not know the
    name, any other error is raised again. *)
Definition get_firewall_policy (policy_name : string)
  : M (option (list (string * string))) :=
  try_except
    (let* response :=
       query (DescribeFirewallPolicy policy_name)
         (λ s, describe_firewall_policy P s policy_name) in
     ret (Some response))
    (λ e,
       match e with
       | ClientError code =>
           if String.eqb code "ResourceNotFoundException" then Some (ret None)
           else None
       | _ => None
       end).

(** [_get_account_id]: any exception gives the default. *)
Definition _get_account_id : M string :=
  try_except
    (let* response := query GetCallerIdentity (get_caller_identity P) in
     match response with
     | Some account => ret account
     | None => raise (OtherException "KeyError")
     end)
    (λ _, Some (ret "123456789012")).

(** [_create_rule_group]. *)
Definition _create_rule_group (group_name : string) (rules : list FirewallRule)
  : M bool :=
  try_except
    (let suricata_rules := map _convert_rule_to_suricata rules in
     let rules_string := join (String (ascii_of_nat 10) "") suricata_rules in
     let* _ :=
       request (CreateRuleGroup group_name "STATEFUL" 100 rules_string)
         (λ s, create_rule_group_api P s group_name "STATEFUL" 100 rules_string) in
     let* _ := say (CreatedRuleGroup group_name) in
     ret true)
    (λ e,
       match e with
       | ClientError _ =>
           Some (let* _ := say (FailedCreateRuleGroup group_name) in ret false)
       | _ => None
       end).

(** The reference appended for one rule group. *)
Definition resource_arn (account_id rule_group_name : string) : string :=
  "arn:aws:network-firewall:" +:+ region +:+ ":" +:+ account_id
    +:+ ":stateful-rulegroup/" +:+ rule_group_name.

(** [_convert_rules_to_aws_format]: the loop over [rules], with the
    list [rule_groups] built so far. *)
Fixpoint convert_rules_loop (rules : list FirewallRule) (rule_groups : list string)
  : M (list string) :=
  match rules with
  | [] => ret rule_groups
  | rule :: rest =>
      let rule_group_name := name rule +:+ "-rule-group" in
      let* _ := _create_rule_group rule_group_name [rule] in
      let* account_id := _get_account_id in
      convert_rules_loop rest (rule_groups ++ [resource_arn account_id rule_group_name])
  end.

Definition _convert_rules_to_aws_format (rules : list FirewallRule)
  : M (list string) :=
  convert_rules_loop rules [].

(** [create_firewall_policy]. *)
Definition create_firewall_policy (policy_config : FirewallPolicy) : M bool :=
  try_except
    (let* rules_source := _convert_rules_to_aws_format (rules policy_config) in
     let description := or_else (policy_description policy_config) "" in
     let* _ :=
       request
         (CreateFirewallPolicy (policy_name policy_config) rules_source description)
         (λ s, create_firewall_policy_api P s (policy_name policy_config)
                 rules_source description) in
     let* _ := say (CreatedPolicy (policy_name policy_config)) in
     ret true)
    (λ e,
       match e with
       | ClientError _ =>
           Some (let* _ := say (FailedCreatePolicy (policy_name policy_config)) in
                 ret false)
       | _ => None
       end).

(** [update_firewall_policy]. *)
Definition update_firewall_policy (policy_config : FirewallPolicy) : M bool :=
  try_except
    (let* rules_source := _convert_rules_to_aws_format (rules policy_config) in
     let description := or_else (policy_description policy_config) "" in
     let* _ :=
       request
         (UpdateFirewallPolicy (policy_name policy_config) rules_source description)
         (λ s, update_firewall_policy_api P s (policy_name policy_config)
                 rules_source description) in
     let* _ := say (UpdatedPolicy (policy_name policy_config)) in
     ret true)
    (λ e,
       match e with
       | ClientError _ =>
           Some (let* _ := say (FailedUpdatePolicy (policy_name policy_config)) in
                 ret false)
       | _ => None
       end).

(** [list_firewall_policies]. *)
Definition list_firewall_policies : M (list (string * string)) :=
  try_except
    (query ListFirewallPolicies (list_firewall_policies_api P))
    (λ e,
       match e with
       | ClientError _ => Some (let* _ := say FailedListPolicies in ret [])
       | _ => None
       end).

(** [validate_configuration]: the inner loop over the rules of one
    policy; [false] is the early [return False]. *)
Fixpoint validate_rules (rules : list FirewallRule) : M bool :=
  match rules with
  | [] => ret true
  | rule :: rest =>
      if negb (_is_valid_action (action rule)) then
        let* _ := say (InvalidAction (action rule)) in
        ret false
      else if negb (_is_valid_protocol (protocol rule)) then
        let* _ := say (InvalidProtocol (protocol rule)) in
        ret false
      else validate_rules rest
  end.

Fixpoint validate_policies (ps : list FirewallPolicy) : M bool :=
  match ps with
  | [] => ret true
  | policy :: rest =>
      let* ok := validate_rules (rules policy) in
      if ok then validate_policies rest else ret false
  end.

Definition validate_configuration (config : FirewallConfiguration) : M bool :=
  let* _ := say Validating in
  let* ok := validate_policies (policies config) in
  if ok then
    let* _ := say ValidationPassed in
    ret true
  else ret false.

(** [apply_configuration]: the loop over the policies, carrying
    [success_count]. *)
Fixpoint apply_loop (dry_run : bool) (ps : list FirewallPolicy) (success_count : nat)
  : M nat :=
  match ps with
  | [] => ret success_count
  | policy_config :: rest =>
      let* _ := say (ProcessingPolicy (policy_name policy_config)) in
      let* existing_policy := get_firewall_policy (policy_name policy_config) in
      let* success_count :=
        match existing_policy with
        | Some (_ :: _) =>
            if negb dry_run then
              let* ok := update_firewall_policy policy_config in
              ret (if ok : bool then S success_count else success_count)
            else
              let* _ := say (WouldUpdatePolicy (policy_name policy_config)) in
              ret (S success_count)
        | _ =>
            if negb dry_run then
              let* ok := create_firewall_policy policy_config in
              ret (if ok : bool then S success_count else success_count)
            else
              let* _ := say (WouldCreatePolicy (policy_name policy_config)) in
              ret (S success_count)
        end in
      apply_loop dry_run rest success_count
  end.

Definition apply_configuration (config : FirewallConfiguration) (dry_run : bool)
  : M bool :=
  let* _ := say Applying in
  let* _ := if dry_run then say DryRunMode else ret tt in
  let* success_count := apply_loop dry_run (policies config) 0 in
  let* _ := say SummaryHeader in
  let* _ := say (Summary success_count (length (policies config))) in
  ret (Nat.eqb success_count (length (policies config))).

End Manager.

(** [main]: [boto] and [file] are what the surroundings give to the
    client constructor and to the configuration loader. *)
Definition main (P : provider) (args : arguments) (boto : option exn)
    (file : load_result) : Py.M (state P) api line unit :=
  let* _ := __init__ P boto in
  if list_policies args then
    let* _ := say ListingPolicies in
    let* policies := list_firewall_policies P in
    match policies with
    | _ :: _ => say (PoliciesTable policies)
    | [] => say NoPoliciesFound
    end
  else
    let* _ := say (LoadingConfiguration (config args)) in
    let* config := load_configuration P file in
    let* ok := validate_configuration P config in
    if negb ok then sys_exit 1
    else if validate_only args then say ConfigurationValid
    else
      let* ok := apply_configuration P (region_arg args) config (dry_run args) in
      if ok then
        if dry_run args then say DryRunCompleted else say AppliedSuccessfully
      else
        let* _ := say FailedToApply in
        sys_exit 1.

(** *** What a run reports *)


(** *** Properties a provider may have *)


(** No call is turned down: creates and updates succeed, and a describe
    either answers or reports that the name is unknown. *)
Definition never_rejects (P : provider) : Prop :=
  (∀ s n refs d, fst (create_firewall_policy_api P s n refs d) = None)
  ∧ (∀ s n refs d, fst (update_firewall_policy_api P s n refs d) = None)
  ∧ (∀ s n ty cap text, fst (create_rule_group_api P s n ty cap text) = None)
  ∧ (∀ s n, match describe_firewall_policy P s n with
            | inr _ => True
            | inl e => e = ClientError "ResourceNotFoundException"
            end).

(** *** An in-memory provider

    It keeps the policies and rule groups it was given, replaces what
    exists under the same name, and fails where [faults] says so. *)
Record cloud : Type := {
  cloud_policies : gmap string (list string * string);
  cloud_rule_groups : gmap string string;
  cloud_account : option string
}.

Definition in_memory (faults : api → option exn) : provider := {|
  state := cloud;
  describe_firewall_policy s n :=
    match faults (DescribeFirewallPolicy n) with
    | Some e => inl e
    | None =>
        match cloud_policies s !! n with
        | Some (refs, d) => inr [("Description", d)]
        | None => inl (ClientError "ResourceNotFoundException")
        end
    end;
  create_firewall_policy_api s n refs d :=
    match faults (CreateFirewallPolicy n refs d) with
    | Some e => (Some e, s)
    | None =>
        (None, {| cloud_policies := <[n := (refs, d)]> (cloud_policies s);
                  cloud_rule_groups := cloud_rule_groups s;
                  cloud_account := cloud_account s |})
    end;
  update_firewall_policy_api s n refs d :=
    match faults (UpdateFirewallPolicy n refs d) with
    | Some e => (Some e, s)
    | None =>
        (None, {| cloud_policies := <[n := (refs, d)]> (cloud_policies s);
                  cloud_rule_groups := cloud_rule_groups s;
                  cloud_account := cloud_account s |})
    end;
  create_rule_group_api s n ty cap text :=
    match faults (CreateRuleGroup n ty cap text) with
    | Some e => (Some e, s)
    | None =>
        (None, {| cloud_policies := cloud_policies s;
                  cloud_rule_groups := <[n := text]> (cloud_rule_groups s);
                  cloud_account := cloud_account s |})
    end;
  list_firewall_policies_api s :=
    match faults ListFirewallPolicies with
    | Some e => inl e
    | None => inr (map (λ kv, (fst kv, "arn:" +:+ fst kv)) (map_to_list (cloud_policies s)))
    end;
  get_caller_identity s :=
    match faults GetCallerIdentity with
    | Some e => inl e
    | None => inr (cloud_account s)
    end
|}.

Definition no_faults : api → option exn := λ _, None.

(** An account with nothing in it. *)
Definition empty_cloud : cloud :=
  {| cloud_policies := ∅; cloud_rule_groups := ∅; cloud_account := Some "111122223333" |}.

(** *** Examples *)

(** The rule of the example: block-x. *)
Definition block_x (description : option string) : FirewallRule :=
  {| name := "block-x"; priority := 10; action := "DROP"; source := "ANY";
     destination := "203.0.113.5/32"; protocol := "TCP"; description := description |}.

(** The text of a rule from its five tokens and its identifier. *)
Definition rule_text (act proto src dst msg : string) (sid : Z) : string :=
  act +:+ " " +:+ proto +:+ " " +:+ src +:+ " any -> " +:+ dst
    +:+ " any (msg:" +:+ dquote +:+ msg +:+ dquote +:+ "; sid:" +:+ str_of_int sid +:+ ";)".

(** The lookup fails with an exception that is not a [ClientError]. *)
Definition sts_down (c : api) : option exn :=
  match c with
  | GetCallerIdentity => Some (OtherException "EndpointConnectionError")
  | _ => None
  end.

(** The provider turns every rule group down. *)
Definition rule_groups_down (c : api) : option exn :=
  match c with
  | CreateRuleGroup _ _ _ _ => Some (ClientError "InvalidRequestException")
  | _ => None
  end.


(** A policy with the rule of the example, and a document with this
    policy alone. *)
Definition edge_policy : FirewallPolicy :=
  {| policy_name := "edge"; policy_description := None; rules := [block_x None] |}.


(** A command line that applies the document. *)
Definition apply_arguments (dry_run : bool) : arguments :=
  {| config := "firewall.yaml"; region_arg := "ap-southeast-4"; dry_run := dry_run;
     validate_only := false; list_policies := false; verbose := false |}.

(** Whether every rule of the document has a valid action and a valid
    protocol: what [validate_configuration] checks. *)
Definition valid_rule (rule : FirewallRule) : bool :=
  _is_valid_action (action rule) && _is_valid_protocol (protocol rule).

Definition valid_document (config : FirewallConfiguration) : bool :=
  forallb (λ policy, forallb valid_rule (rules policy)) (policies config).


(** What ends the firewall tool before it applies anything: no
    credentials, a document that cannot be loaded, a document that is
    not valid.  Listing the policies needs no document. *)
Definition fatal (args : arguments) (boto : option exn) (file : load_result) : bool :=
  match boto with
  | Some NoCredentialsError => true
  | Some _ => false
  | None =>
      if list_policies args then false
      else
        match file with
        | Loaded c => negb (valid_document c)
        | _ => true
        end
  end.

(** *** More on what a run does *)










(** The provider refuses to describe and to list policies. *)
Definition reads_denied (c : api) : option exn :=
  match c with
  | DescribeFirewallPolicy _ | ListFirewallPolicies =>
      Some (ClientError "AccessDeniedException")
  | _ => None
  end.

(** A command line that lists the policies. *)
Definition list_arguments : arguments :=
  {| config := "firewall.yaml"; region_arg := "ap-southeast-4"; dry_run := false;
     validate_only := false; list_policies := true; verbose := false |}.



End firewall_manager.

(** ** route_manager.py *)

Module route_manager.

(** Model for a route configuration. *)
Record Route : Type := {
  destination : string;
  target : string;
  description : option string;
  target_type : option string
}.

(** Model for a route table configuration. *)
Record RouteTable : Type := {
  table_id : string;
  routes : list Route;
  table_description : option string
}.

(** Model for the complete route configuration. *)
Record RouteConfiguration : Type := {
  route_tables : list RouteTable
}.

(** A route of a route table as the ec2 resource shows it; an attribute
    that is not set is [None]. *)
Record remote_route : Type := {
  destination_cidr_block : option string;
  gateway_id : option string;
  nat_gateway_id : option string;
  vpc_peering_connection_id : option string;
  network_interface_id : option string
}.

(** A loaded ec2 RouteTable resource. *)
Record remote_table : Type := {
  id : string;
  remote_routes : list remote_route
}.

(** The dictionaries built by [get_existing_routes]. *)
Record existing_route : Type := {
  existing_destination : option string;
  existing_target : string;
  existing_target_type : string
}.

(** Calls on the ec2 client and resource; [CreateRoute] carries the
    keyword arguments in the order the source adds them. *)
Inductive api : Type :=
| LoadRouteTable (RouteTableId : string)
| CreateRoute (kwargs : list (string * string))
| DeleteRoute (RouteTableId DestinationCidrBlock : string).

Definition mutating (c : api) : bool :=
  match c with
  | CreateRoute _ | DeleteRoute _ _ => true
  | LoadRouteTable _ => false
  end.

(** The provider behind the ec2 client and resource. *)
Record provider : Type := {
  state : Type;
  load_route_table : state → string → exn + list remote_route;
  create_route_api : state → list (string * string) → option exn * state;
  delete_route_api : state → string → string → option exn * state
}.

(** Lines printed on the console. *)
Inductive line : Type :=
| CredentialsNotFound
| ConfigFileNotFound
| ConfigInvalidYAML
| ConfigLoadFailed
| CreatedRoute (destination target : string)
| RouteAlreadyExists (destination : string)
| FailedCreateRoute (destination : string)
| DeletedRoute (destination : string)
| FailedDeleteRoute (destination : string)
| ProcessingRouteTable (table_id : string)
| RouteTableNotFound (table_id : string)
| DryRunMode
| WouldCreateRoute (destination target : string)
| ProcessedRoutes (success_count : nat)
| Validating
| InvalidCIDR (destination : string)
| ValidationPassed
| LoadingConfiguration (path : string)
| ConfigurationValid
| SummaryHeader
| Summary (succeeded total : nat)
| DryRunCompleted
| UpdatesCompleted.

(** What reading and parsing the configuration file gives. *)
Inductive load_result : Type :=
| Loaded (c : RouteConfiguration)
| FileNotFoundError
| YAMLError
| LoadException.

(** The command line; [verbose] only sets the level of the log. *)
Record arguments : Type := {
  config : string;
  region : string;
  dry_run : bool;
  validate_only : bool;
  verbose : bool
}.

(** [_get_route_target] and [_get_target_type]. *)
Definition _get_route_target (route : remote_route) : string :=
  or_else (gateway_id route)
    (or_else (nat_gateway_id route)
       (or_else (vpc_peering_connection_id route)
          (or_else (network_interface_id route) "unknown"))).

Definition _get_target_type (route : remote_route) : string :=
  if truthy (gateway_id route) then "gateway"
  else if truthy (nat_gateway_id route) then "nat"
  else if truthy (vpc_peering_connection_id route) then "vpc-peering"
  else if truthy (network_interface_id route) then "network-interface"
  else "unknown".

(** [get_existing_routes]: the loop over [route_table.routes]. *)
Fixpoint get_existing_routes_loop (rs : list remote_route) (routes : list existing_route)
  : list existing_route :=
  match rs with
  | [] => routes
  | route :: rest =>
      if bool_decide (destination_cidr_block route ≠ Some "0.0.0.0/0") then
        get_existing_routes_loop rest
          (routes ++ [ {| existing_destination := destination_cidr_block route;
                          existing_target := _get_route_target route;
                          existing_target_type := _get_target_type route |} ])
      else get_existing_routes_loop rest routes
  end.

Definition get_existing_routes (route_table : remote_table) : list existing_route :=
  get_existing_routes_loop (remote_routes route_table) [].

(** The set comprehension of [update_route_table]. *)
Definition existing_destinations (route_table : remote_table) : gset (option string) :=
  list_to_set (map existing_destination (get_existing_routes route_table)).

(** The keyword arguments [create_route] passes on. *)
Definition create_route_kwargs (route_table : remote_table) (route : Route)
  : list (string * string) :=
  let kwargs :=
    [("RouteTableId", id route_table); ("DestinationCidrBlock", destination route)] in
  if startswith (target route) "igw-" then kwargs ++ [("GatewayId", target route)]
  else if startswith (target route) "nat-" then kwargs ++ [("NatGatewayId", target route)]
  else if startswith (target route) "pcx-" then
    kwargs ++ [("VpcPeeringConnectionId", target route)]
  else if startswith (target route) "eni-" then
    kwargs ++ [("NetworkInterfaceId", target route)]
  else kwargs ++ [("GatewayId", target route)].

Section Manager.
(** One [RouteManager]: its client and resource talk to [P].
    [IPv4Network cidr] tells whether the constructor of the standard
    library, called with [strict=False], accepts [cidr]. *)
Variable P : provider.
Variable IPv4Network : string → bool.

Local Abbreviation M := (Py.M (state P) api line).

(** [RouteManager.__init__]: [boto] is what constructing the client
    and the resource raises, if anything. *)
Definition __init__ (boto : option exn) : M unit :=
  match boto with
  | None => ret tt
  | Some NoCredentialsError =>
      let* _ := say CredentialsNotFound in
      sys_exit 1
  | Some e => raise e
  end.

(** [load_configuration]: every failure ends the process. *)
Definition load_configuration (file : load_result) : M RouteConfiguration :=
  match file with
  | Loaded c => ret c
  | FileNotFoundError =>
      let* _ := say ConfigFileNotFound in
      sys_exit 1
  | YAMLError =>
      let* _ := say ConfigInvalidYAML in
      sys_exit 1
  | LoadException =>
      let* _ := say ConfigLoadFailed in
      sys_exit 1
  end.

(** [get_route_table]: [None] when the provider does not know the
    identifier, any other error is raised again. *)
Definition get_route_table (table_id : string) : M (option remote_table) :=
  try_except
    (let* rs := query (LoadRouteTable table_id) (λ s, load_route_table P s table_id) in
     ret (Some {| id := table_id; remote_routes := rs |}))
    (λ e,
       match e with
       | ClientError code =>
           if String.eqb code "InvalidRouteTableID.NotFound" then Some (ret None)
           else None
       | _ => None
       end).

(** [create_route]. *)
Definition create_route (route_table : remote_table) (route : Route) : M bool :=
  try_except
    (let kwargs := create_route_kwargs route_table route in
     let* _ := request (CreateRoute kwargs) (λ s, create_route_api P s kwargs) in
     let* _ := say (CreatedRoute (destination route) (target route)) in
     ret true)
    (λ e,
       match e with
       | ClientError code =>
           if String.eqb code "RouteAlreadyExists" then
             Some (let* _ := say (RouteAlreadyExists (destination route)) in ret true)
           else
             Some (let* _ := say (FailedCreateRoute (destination route)) in ret false)
       | _ => None
       end).

(** [delete_route]. *)
Definition delete_route (route_table : remote_table) (destination : string) : M bool :=
  try_except
    (let* _ :=
       request (DeleteRoute (id route_table) destination)
         (λ s, delete_route_api P s (id route_table) destination) in
     let* _ := say (DeletedRoute destination) in
     ret true)
    (λ e,
       match e with
       | ClientError _ =>
           Some (let* _ := say (FailedDeleteRoute destination) in ret false)
       | _ => None
       end).

(** [update_route_table]: the loop over the routes of the group,
    carrying [success_count]. *)
Fixpoint update_loop (route_table : remote_table)
    (existing_destinations : gset (option string)) (dry_run : bool)
    (rs : list Route) (success_count : nat) : M nat :=
  match rs with
  | [] => ret success_count
  | route :: rest =>
      let* success_count :=
        if bool_decide (Some (destination route) ∉ existing_destinations) then
          if negb dry_run then
            let* ok := create_route route_table route in
            ret (if ok : bool then S success_count else success_count)
          else
            let* _ := say (WouldCreateRoute (destination route) (target route)) in
            ret (S success_count)
        else
          let* _ := say (RouteAlreadyExists (destination route)) in
          ret success_count in
      update_loop route_table existing_destinations dry_run rest success_count
  end.

Definition update_route_table (route_table_config : RouteTable) (dry_run : bool)
  : M bool :=
  let* _ := say (ProcessingRouteTable (table_id route_table_config)) in
  let* route_table := get_route_table (table_id route_table_config) in
  match route_table with
  | None =>
      let* _ := say (RouteTableNotFound (table_id route_table_config)) in
      ret false
  | Some route_table =>
      let* _ := if dry_run then say DryRunMode else ret tt in
      let existing_destinations := existing_destinations route_table in
      let* success_count :=
        update_loop route_table existing_destinations dry_run
          (routes route_table_config) 0 in
      let* _ := say (ProcessedRoutes success_count) in
      ret true
  end.

(** [_is_valid_cidr]. *)
Definition _is_valid_cidr (cidr : string) : bool := IPv4Network cidr.

(** [validate_configuration]: the inner loop over the routes of one
    table; [false] is the early [return False]. *)
Fixpoint validate_routes (rs : list Route) : M bool :=
  match rs with
  | [] => ret true
  | route :: rest =>
      if negb (_is_valid_cidr (destination route)) then
        let* _ := say (InvalidCIDR (destination route)) in
        ret false
      else validate_routes rest
  end.

Fixpoint validate_tables (ts : list RouteTable) : M bool :=
  match ts with
  | [] => ret true
  | route_table :: rest =>
      let* found := get_route_table (table_id route_table) in
      match found with
      | None =>
          let* _ := say (RouteTableNotFound (table_id route_table)) in
          ret false
      | Some _ =>
          let* ok := validate_routes (routes route_table) in
          if ok then validate_tables rest else ret false
      end
  end.

Definition validate_configuration (config : RouteConfiguration) : M bool :=
  let* _ := say Validating in
  let* ok := validate_tables (route_tables config) in
  if ok then
    let* _ := say ValidationPassed in
    ret true
  else ret false.

(** The loop of [main] over the route tables, carrying
    [success_count]. *)
Fixpoint process_route_tables (dry_run : bool) (ts : list RouteTable)
    (success_count : nat) : M nat :=
  match ts with
  | [] => ret success_count
  | route_table_config :: rest =>
      let* ok := update_route_table route_table_config dry_run in
      process_route_tables dry_run rest
        (if ok : bool then S success_count else success_count)
  end.

(** [main]: [boto] and [file] are what the surroundings give to the
    client constructor and to the configuration loader. *)
Definition main (args : arguments) (boto : option exn) (file : load_result) : M unit :=
  let* _ := __init__ boto in
  let* _ := say (LoadingConfiguration (config args)) in
  let* config := load_configuration file in
  let* ok := validate_configuration config in
  if negb ok then sys_exit 1
  else if validate_only args then say ConfigurationValid
  else
    let* success_count := process_route_tables (dry_run args) (route_tables config) 0 in
    let* _ := say SummaryHeader in
    let* _ := say (Summary success_count (length (route_tables config))) in
    if dry_run args then say DryRunCompleted else say UpdatesCompleted.

End Manager.

(** *** What a run reports *)



(** Whether [update_route_table] takes a desired route as new. *)
Definition is_new (route_table : remote_table) (route : Route) : bool :=
  bool_decide (Some (destination route) ∉ existing_destinations route_table).

(** *** Properties a provider may have *)



(** No route creation is turned down. *)
Definition never_rejects (P : provider) : Prop :=
  ∀ s kwargs, fst (create_route_api P s kwargs) = None.

(** *** An in-memory provider

    It keeps the route tables it was given, adds a created route to its
    table (in place of a route with the same destination), and turns a
    call down only where [faults] says so. *)
Fixpoint kwarg (k : string) (kwargs : list (string * string)) : option string :=
  match kwargs with
  | [] => None
  | (k', v) :: rest => if String.eqb k k' then Some v else kwarg k rest
  end.

Definition route_of_kwargs (kwargs : list (string * string)) : remote_route :=
  {| destination_cidr_block := kwarg "DestinationCidrBlock" kwargs;
     gateway_id := kwarg "GatewayId" kwargs;
     nat_gateway_id := kwarg "NatGatewayId" kwargs;
     vpc_peering_connection_id := kwarg "VpcPeeringConnectionId" kwargs;
     network_interface_id := kwarg "NetworkInterfaceId" kwargs |}.

Definition in_memory (faults : api → option exn) : provider := {|
  state := gmap string (list remote_route);
  load_route_table s tid :=
    match faults (LoadRouteTable tid) with
    | Some e => inl e
    | None =>
        match s !! tid with
        | Some rs => inr rs
        | None => inl (ClientError "InvalidRouteTableID.NotFound")
        end
    end;
  create_route_api s kwargs :=
    match faults (CreateRoute kwargs) with
    | Some e => (Some e, s)
    | None =>
        let tid := default "" (kwarg "RouteTableId" kwargs) in
        let new := route_of_kwargs kwargs in
        let others :=
          filter (λ r, destination_cidr_block r ≠ destination_cidr_block new)
            (default [] (s !! tid)) in
        (None, <[tid := others ++ [new]]> s)
    end;
  delete_route_api s tid dest :=
    match faults (DeleteRoute tid dest) with
    | Some e => (Some e, s)
    | None =>
        (None,
         <[tid := filter (λ r, destination_cidr_block r ≠ Some dest) (default [] (s !! tid))]> s)
    end
|}.

Definition no_faults : api → option exn := λ _, None.

(** A checker for the plain form a.b.c.d/p, to stand for [IPv4Network]
    in the examples. *)
Fixpoint split (sep : ascii) (s : string) : list string :=
  match s with
  | EmptyString => [""]
  | String c s' =>
      if Ascii.eqb c sep then "" :: split sep s'
      else
        match split sep s' with
        | x :: l => String c x :: l
        | [] => [String c ""]
        end
  end.

Fixpoint number (s : string) (acc : nat) : option nat :=
  match s with
  | EmptyString => Some acc
  | String c s' =>
      let n := nat_of_ascii c in
      if Nat.leb 48 n && Nat.leb n 57 then number s' (10 * acc + (n - 48)) else None
  end.

Definition at_most (hi : nat) (s : string) : bool :=
  match s with
  | EmptyString => false
  | _ =>
      match number s 0 with
      | Some n => Nat.leb n hi
      | None => false
      end
  end.

Definition plain_cidr (s : string) : bool :=
  match split "/" s with
  | [a; p] =>
      match split "." a with
      | [x; y; z; w] =>
          at_most 255 x && at_most 255 y && at_most 255 z && at_most 255 w && at_most 32 p
      | _ => false
      end
  | _ => false
  end.

(** *** What validation checks *)

(** Whether a table of the document is there at the provider, in state
    [s], and all its destinations are accepted. *)
Definition valid_table (P : provider) (IPv4Network : string → bool) (s : state P)
    (route_table : RouteTable) : bool :=
  match load_route_table P s (table_id route_table) with
  | inr _ => forallb (λ route, IPv4Network (destination route)) (routes route_table)
  | inl _ => false
  end.

Definition valid_document (P : provider) (IPv4Network : string → bool) (s : state P)
    (config : RouteConfiguration) : bool :=
  forallb (valid_table P IPv4Network s) (route_tables config).

(** What ends the route tool before it applies anything: no
    credentials, a document that cannot be loaded, a document that is
    not valid. *)
Definition fatal (P : provider) (IPv4Network : string → bool) (s : state P)
    (boto : option exn) (file : load_result) : bool :=
  match boto with
  | Some NoCredentialsError => true
  | Some _ => false
  | None =>
      match file with
      | Loaded c => negb (valid_document P IPv4Network s c)
      | _ => true
      end
  end.

(** *** Examples *)

(** A remote route through a gateway, a desired route, the table rtb-1
    of a document and the provider that holds rtb-1. *)
Definition through_gateway (cidr gateway : string) : remote_route :=
  {| destination_cidr_block := Some cidr; gateway_id := Some gateway;
     nat_gateway_id := None; vpc_peering_connection_id := None;
     network_interface_id := None |}.

Definition route_to (cidr target : string) : Route :=
  {| destination := cidr; target := target; description := None; target_type := None |}.

Definition rtb_1 (routes : list Route) : RouteTable :=
  {| table_id := "rtb-1"; routes := routes; table_description := None |}.

Definition holding_rtb_1 (rs : list remote_route) : gmap string (list remote_route) :=
  {[ "rtb-1" := rs ]}.

(** The provider turns every route creation down. *)
Definition creations_down (c : api) : option exn :=
  match c with
  | CreateRoute _ => Some (ClientError "InvalidParameterValue")
  | _ => None
  end.

(** A command line that applies the document. *)
Definition apply_arguments (dry_run : bool) : arguments :=
  {| config := "routes.yaml"; region := "ap-southeast-4"; dry_run := dry_run;
     validate_only := false; verbose := false |}.

(** How many route creations of a run were reported as failed. *)
Fixpoint failures (t : list (event api line)) : nat :=
  match t with
  | [] => 0
  | Say (FailedCreateRoute _) :: t' => S (failures t')
  | _ :: t' => failures t'
  end.

(** What a group prints and calls before its loop. *)
Definition group_opening (tid : string) (dry : bool) (failed : option exn)
  : list (event api line) :=
  Say (ProcessingRouteTable tid) :: Call (LoadRouteTable tid) failed
    :: match failed with
       | Some _ => []
       | None => if dry then [Say DryRunMode] else []
       end.


(** The document of the examples: the table rtb-1 with one route. *)
Definition one_route : RouteConfiguration :=
  {| route_tables := [rtb_1 [route_to "10.0.1.0/24" "igw-abc"]] |}.

(** A document that names a table the provider does not hold. *)
Definition unknown_table : RouteConfiguration :=
  {| route_tables :=
       [rtb_1 [route_to "10.0.1.0/24" "igw-abc"];
        {| table_id := "rtb-2"; routes := [route_to "10.0.2.0/24" "igw-abc"];
           table_description := None |}] |}.

(** *** More on what a run does *)

(** Whether a call is one that the tables of a document ask for: the
    fetch of one of the tables, or the creation of one of the routes of
    a table, in this table.  A deletion is never asked for. *)
Definition asked_for (tables : list RouteTable) (c : api) : Prop :=
  match c with
  | LoadRouteTable tid => tid ∈ map table_id tables
  | CreateRoute kwargs =>
      ∃ table route rs,
        table ∈ tables ∧ route ∈ routes table
        ∧ kwargs = create_route_kwargs {| id := table_id table; remote_routes := rs |} route
  | DeleteRoute _ _ => False
  end.



End route_manager.

(** * Properties *)

Ltac step := unfold bind, try_except, query, request, say, ret, raise, sys_exit; simpl.

(** ** Runs *)

Section runs.
Context {S C L : Type}.
Implicit Types (t : list (event C L)) (s : S).

Lemma calls_app t t' : calls (t ++ t') = calls t ++ calls t'.
Proof. induction t as [|[c r|l] t IH]; simpl; by rewrite ?IH. Qed.


Variable mutating : C → bool.








Lemma calls_bind_Forall {A B} (Q : C → Prop) (m : M S C L A) (f : A → M S C L B) s :
  Forall Q (calls (m s).2) →
  (∀ a s' t, m s = (Return a, s', t) → Forall Q (calls (f a s').2)) →
  Forall Q (calls (bind m f s).2).
Proof.
  intros Hm Hf. unfold bind. destruct (m s) as [[[a | e | c] s'] t]; simpl in *; try done.
  specialize (Hf a s' t eq_refl). destruct (f a s') as [[o s''] t']. simpl in *.
  rewrite calls_app. by apply Forall_app.
Qed.

End runs.

(** ** Upper and lower case *)

Lemma upper_ascii_lower_ascii (c u : ascii) :
  u ∈ ["A"; "N"; "Y"]%char → upper_ascii c = u → lower_ascii c = lower_ascii u.
Proof.
  intros Hu Hc. subst u.
  destruct c as [[] [] [] [] [] [] [] []]; vm_compute in Hu |- *;
    first [ reflexivity | exfalso; set_solver ].
Qed.

Lemma upper_ANY_lower (s : string) : upper s = "ANY" → lower s = "any".
Proof.
  destruct s as [|a [|b [|c [|d s]]]]; simpl; try discriminate.
  intros H. injection H as Ha Hb Hc.
  rewrite (upper_ascii_lower_ascii a "A"), (upper_ascii_lower_ascii b "N"),
    (upper_ascii_lower_ascii c "Y"); [reflexivity | set_solver ..]; assumption.
Qed.

(** ** The firewall tool *)

Section firewall.
Import firewall_manager.


(** C4, as amended: the text of every rule is
    [<action> <protocol> <source> any -> <destination> any (msg:..; sid:<priority>;)]
    where the action is drop exactly when the action of the rule is DROP
    in upper case and alert otherwise, the protocol is in lower case, a
    field that is ANY in upper case gives the token any and any other
    source or destination is kept, and the message is the description
    when there is one that is not empty, the name otherwise; the rule
    block-x gives the text of the example. *)
Theorem suricata_rule_text (rule : FirewallRule) :
  (∃ act proto src dst msg,
     _convert_rule_to_suricata rule = rule_text act proto src dst msg (priority rule)
     ∧ (act = "drop" ↔ upper (action rule) = "DROP")
     ∧ (act = "alert" ↔ upper (action rule) ≠ "DROP")
     ∧ proto = lower (protocol rule)
     ∧ (upper (protocol rule) = "ANY" → proto = "any")
     ∧ (upper (source rule) = "ANY" → src = "any")
     ∧ (upper (source rule) ≠ "ANY" → src = source rule)
     ∧ (upper (destination rule) = "ANY" → dst = "any")
     ∧ (upper (destination rule) ≠ "ANY" → dst = destination rule)
     ∧ (∀ d, description rule = Some d → d ≠ "" → msg = d)
     ∧ (description rule = None ∨ description rule = Some "" → msg = name rule))
  ∧ _convert_rule_to_suricata (block_x None)
    = "drop tcp any any -> 203.0.113.5/32 any (msg:" +:+ dquote +:+ "block-x" +:+ dquote
        +:+ "; sid:10;)".
Proof.
  split; [|reflexivity].
  unfold _convert_rule_to_suricata, rule_text.
  eexists _, _, _, _, _. split; [reflexivity|].
  repeat split.
  - destruct (String.eqb_spec (upper (action rule)) "DROP"); [done | discriminate].
  - destruct (String.eqb_spec (upper (action rule)) "DROP"); done.
  - destruct (String.eqb_spec (upper (action rule)) "DROP"); [discriminate | done].
  - destruct (String.eqb_spec (upper (action rule)) "DROP"); done.
  - destruct (String.eqb_spec (upper (protocol rule)) "ANY") as [H|]; [|done].
    symmetry. by apply upper_ANY_lower.
  - intros H. destruct (String.eqb_spec (upper (protocol rule)) "ANY"); [done|].
    by apply upper_ANY_lower.
  - intros H. by rewrite (proj2 (String.eqb_eq _ _) H).
  - intros H. by rewrite (proj2 (String.eqb_neq _ _) H).
  - intros H. by rewrite (proj2 (String.eqb_eq _ _) H).
  - intros H. by rewrite (proj2 (String.eqb_neq _ _) H).
  - intros d -> Hd. by destruct d.
  - intros [-> | ->]; done.
Qed.

(** C4, as stated, fails on a rule whose description is the empty
    string: the message is the name, not the description. *)
Lemma empty_description_gives_name :
  description (block_x (Some "")) = Some ""
  ∧ _convert_rule_to_suricata (block_x (Some ""))
    = rule_text "drop" "tcp" "any" "203.0.113.5/32" "block-x" 10
  ∧ _convert_rule_to_suricata (block_x (Some ""))
    ≠ rule_text "drop" "tcp" "any" "203.0.113.5/32" "" 10.
Proof. repeat split. vm_compute. discriminate. Qed.

(** *** The account identifier *)


(** C9: when the identity lookup fails, whatever the reason (the client
    raises, or the response has no account), the account identifier is
    the placeholder 123456789012; the lookup returns, nothing is raised,
    and the state of the provider is as before. *)
Theorem account_id_placeholder (P : provider) (s : state P) :
  (∀ account, get_caller_identity P s ≠ inr (Some account)) →
  (_get_account_id P s).1 = (Return "123456789012", s)
  ∧ calls (_get_account_id P s).2 = [GetCallerIdentity].
Proof.
  intros H. unfold _get_account_id. step.
  destruct (get_caller_identity P s) as [e | [account|]] eqn:E; simpl; try done.
  by destruct (H account).
Qed.

Lemma account_id_placeholder_witness :
  (_get_account_id (in_memory sts_down) empty_cloud).1
  = (Return "123456789012", empty_cloud).
Proof.
  apply (account_id_placeholder (in_memory sts_down) empty_cloud).
  intros account. simpl. discriminate.
Defined.

(** *** Rule groups and policies *)





(** *** Validation *)






(** *** Applying a document *)













(** *** The exit status of the firewall tool *)



(** *** Dry runs of the firewall tool *)






(** *** Examples of the firewall tool *)


(** Every rule group is turned down and the policy is created all the
    same, with the reference to the rule group that does not exist. *)
Example policy_created_without_rule_groups :
  let r := create_firewall_policy (in_memory rule_groups_down) "ap-southeast-4"
             edge_policy empty_cloud in
  r.1.1 = Return true
  ∧ r.2
    = [Call (CreateRuleGroup "block-x-rule-group" "STATEFUL" 100
               (_convert_rule_to_suricata (block_x None)))
         (Some (ClientError "InvalidRequestException"));
       Say (FailedCreateRuleGroup "block-x-rule-group");
       Call GetCallerIdentity None;
       Call (CreateFirewallPolicy "edge"
               ["arn:aws:network-firewall:ap-southeast-4:111122223333:stateful-rulegroup/block-x-rule-group"]
               "") None;
       Say (CreatedPolicy "edge")].
Proof. split; reflexivity. Qed.




(** *** Letter case *)



Lemma upper_lower_ascii (c : ascii) : upper_ascii (lower_ascii c) = upper_ascii c.
Proof. by destruct c as [[] [] [] [] [] [] [] []]. Qed.

Lemma upper_lower (s : string) : upper (lower s) = upper s.
Proof. induction s as [|c s IH]; simpl; [done|]. by rewrite upper_lower_ascii, IH. Qed.





(** *** Validation, line by line *)









(** *** The calls of a conversion *)








(** *** Applying, policy by policy *)






(** *** What a dry run announces *)




(** *** A lookup that fails *)



(** *** Listing the policies *)

(** With the option to list the policies, the tool reads no document:
    whatever the file is, its only call is the listing and the provider
    is as before.  It prints the table of the policies, or that there
    are none; a listing that the provider turns down is reported, and
    the run then goes on as if there were no policy and returns. *)
Theorem listing_reads_no_document (P : provider) (args : arguments)
    (file : load_result) (s : state P) :
  list_policies args = true →
  let r := firewall_manager.main P args None file s in
  r.1.2 = s ∧ calls r.2 = [ListFirewallPolicies]
  ∧ match list_firewall_policies_api P s with
    | inr [] => r.1.1 = Return tt ∧ console r.2 = [ListingPolicies; NoPoliciesFound]
    | inr rows => r.1.1 = Return tt ∧ console r.2 = [ListingPolicies; PoliciesTable rows]
    | inl (ClientError _) =>
        r.1.1 = Return tt
        ∧ console r.2 = [ListingPolicies; FailedListPolicies; NoPoliciesFound]
    | inl e => r.1.1 = Raise e ∧ console r.2 = [ListingPolicies]
    end.
Proof.
  intros Hl r. subst r. unfold firewall_manager.main. rewrite Hl.
  unfold list_firewall_policies. step.
  by destruct (list_firewall_policies_api P s) as [[code| |w]|[|row rows]].
Qed.

Lemma listing_reads_no_document_witness :
  let r := firewall_manager.main (in_memory reads_denied) list_arguments None
             FileNotFoundError empty_cloud in
  r.1.2 = empty_cloud ∧ calls r.2 = [ListFirewallPolicies]
  ∧ r.1.1 = Return tt
  ∧ console r.2 = [ListingPolicies; FailedListPolicies; NoPoliciesFound].
Proof.
  exact (listing_reads_no_document (in_memory reads_denied) list_arguments
           FileNotFoundError empty_cloud eq_refl).
Defined.

(** *** Applying a document twice *)










End firewall.

(** ** The route tool *)

Section routes.
Import route_manager.

(** *** The destinations that exist *)

Lemma get_existing_routes_loop_spec (rs : list remote_route) (acc : list existing_route) :
  map existing_destination (get_existing_routes_loop rs acc)
  = map existing_destination acc
    ++ filter (λ d, d ≠ Some "0.0.0.0/0") (map destination_cidr_block rs).
Proof.
  revert acc. induction rs as [|route rest IH]; intros acc; simpl.
  { by rewrite app_nil_r. }
  rewrite filter_cons. case_bool_decide as H; case_decide; try done.
  rewrite IH, map_app. simpl. by rewrite <- app_assoc.
Qed.

Lemma existing_destinations_spec (route_table : remote_table) (d : option string) :
  d ∈ existing_destinations route_table
  ↔ d ∈ map destination_cidr_block (remote_routes route_table) ∧ d ≠ Some "0.0.0.0/0".
Proof.
  unfold existing_destinations, get_existing_routes.
  rewrite elem_of_list_to_set, get_existing_routes_loop_spec. simpl.
  rewrite list_elem_of_filter. tauto.
Qed.

(** *** Fetching a table and creating a route *)

Lemma get_route_table_eq (P : provider) tid (s : state P) :
  get_route_table P tid s
  = match load_route_table P s tid with
    | inr rs =>
        (Return (Some {| id := tid; remote_routes := rs |}), s,
         [Call (LoadRouteTable tid) None])
    | inl e =>
        (match e with
         | ClientError code =>
             if String.eqb code "InvalidRouteTableID.NotFound" then Return None
             else Raise e
         | _ => Raise e
         end, s, [Call (LoadRouteTable tid) (Some e)])
    end.
Proof.
  unfold get_route_table. step.
  destruct (load_route_table P s tid) as [[code| |w]|rs]; simpl; try done.
  by destruct (String.eqb code _).
Qed.

Lemma create_route_eq (P : provider) route_table route (s : state P) :
  create_route P route_table route s
  = (let kwargs := create_route_kwargs route_table route in
     match create_route_api P s kwargs with
     | (None, s') =>
         (Return true, s',
          [Call (CreateRoute kwargs) None;
           Say (CreatedRoute (destination route) (target route))])
     | (Some (ClientError code), s') =>
         if String.eqb code "RouteAlreadyExists" then
           (Return true, s',
            [Call (CreateRoute kwargs) (Some (ClientError code));
             Say (RouteAlreadyExists (destination route))])
         else
           (Return false, s',
            [Call (CreateRoute kwargs) (Some (ClientError code));
             Say (FailedCreateRoute (destination route))])
     | (Some e, s') => (Raise e, s', [Call (CreateRoute kwargs) (Some e)])
     end).
Proof.
  unfold create_route. step.
  destruct (create_route_api P s _) as [[[code| |w]|] s']; simpl; try done.
  by destruct (String.eqb code _).
Qed.

(** *** The loop over the routes of a group *)


Lemma update_loop_dry (P : provider) route_table E rs n (s : state P) :
  update_loop P route_table E true rs n s
  = (Return (n + length (filter (λ r, Some (destination r) ∉ E) rs)), s,
     map (λ r, Say (if decide (Some (destination r) ∉ E)
                    then WouldCreateRoute (destination r) (target r)
                    else RouteAlreadyExists (destination r))) rs).
Proof.
  revert n. induction rs as [|route rest IH]; intros n; simpl.
  { unfold ret. by rewrite Nat.add_0_r. }
  rewrite filter_cons. unfold bind at 1.
  case_bool_decide; case_decide; try done; step; rewrite IH; simpl;
    do 3 f_equal; lia.
Qed.

Lemma update_loop_live (P : provider) route_table E rs n (s : state P) o s' t :
  update_loop P route_table E false rs n s = (o, s', t) →
  (∃ k, calls t
        = map (λ r, CreateRoute (create_route_kwargs route_table r))
            (take k (filter (λ r, Some (destination r) ∉ E) rs)))
  ∧ match o with
    | Return m =>
        m + failures t = n + length (filter (λ r, Some (destination r) ∉ E) rs)
        ∧ calls t
          = map (λ r, CreateRoute (create_route_kwargs route_table r))
              (filter (λ r, Some (destination r) ∉ E) rs)
    | Raise _ => True
    | SysExit _ => False
    end.
Proof.
  revert n s o s' t. induction rs as [|route rest IH]; intros n s o s' t; simpl.
  { intros [= <- <- <-]. simpl. split; [by exists 0|]. split; [lia|done]. }
  rewrite filter_cons. unfold bind at 1.
  case_bool_decide; case_decide; try done; simpl.
  - unfold bind at 1. rewrite create_route_eq. cbv zeta.
    destruct (create_route_api P s _) as [[[code| |w]|] s1]; simpl.
    + destruct (String.eqb code _); simpl;
        destruct (update_loop P route_table E false rest _ s1) as [[o2 s2] t2] eqn:E2;
        intros [= <- <- <-]; apply IH in E2 as ([k Hk] & Ho); simpl;
        (split; [exists (S k); simpl; by rewrite Hk|]);
        destruct o2; try done; destruct Ho as [Ho ->]; split; try done; lia.
    + intros [= <- <- <-]. simpl. split; [by exists 1; destruct (filter _ rest)|]. done.
    + intros [= <- <- <-]. simpl. split; [by exists 1; destruct (filter _ rest)|]. done.
    + destruct (update_loop P route_table E false rest _ s1) as [[o2 s2] t2] eqn:E2;
        intros [= <- <- <-]; apply IH in E2 as ([k Hk] & Ho); simpl;
        (split; [exists (S k); simpl; by rewrite Hk|]);
        destruct o2; try done; destruct Ho as [Ho ->]; split; try done; lia.
  - destruct (update_loop P route_table E false rest _ s) as [[o2 s2] t2] eqn:E2;
      intros [= <- <- <-]; apply IH in E2 as ([k Hk] & Ho); simpl.
    split; [by exists k|]. by destruct o2.
Qed.



(** *** One group *)

Lemma update_route_table_eq (P : provider) config dry (s : state P) :
  update_route_table P config dry s
  = (let tid := table_id config in
     match load_route_table P s tid with
     | inr rs =>
         let route_table := {| id := tid; remote_routes := rs |} in
         match update_loop P route_table (existing_destinations route_table) dry
                 (routes config) 0 s with
         | (Return m, s', t) =>
             (Return true, s', group_opening tid dry None ++ t ++ [Say (ProcessedRoutes m)])
         | (Raise e, s', t) => (Raise e, s', group_opening tid dry None ++ t)
         | (SysExit c, s', t) => (SysExit c, s', group_opening tid dry None ++ t)
         end
     | inl e =>
         match e with
         | ClientError code =>
             if String.eqb code "InvalidRouteTableID.NotFound" then
               (Return false, s, group_opening tid dry (Some e) ++ [Say (RouteTableNotFound tid)])
             else (Raise e, s, group_opening tid dry (Some e))
         | _ => (Raise e, s, group_opening tid dry (Some e))
         end
     end).
Proof.
  unfold update_route_table. cbv zeta. unfold bind at 1. simpl. unfold bind at 1.
  rewrite get_route_table_eq.
  destruct (load_route_table P s (table_id config)) as [[code| |w]|rs]; simpl; try done.
  - by destruct (String.eqb code _).
  - unfold bind at 1.
    destruct dry; simpl; unfold bind at 1;
      destruct (update_loop P _ _ _ (routes config) 0 s) as [[[m|e|c] s'] t]; simpl; done.
Qed.

(** *** Validation *)

Lemma validate_routes_spec (P : provider) IPv4Network rs (s : state P) :
  ∃ t,
    validate_routes P IPv4Network rs s
    = (Return (forallb (λ route, IPv4Network (destination route)) rs), s, t)
    ∧ calls t = [].
Proof.
  induction rs as [|route rest IH]; simpl; [by eexists|].
  unfold _is_valid_cidr. destruct (IPv4Network (destination route)); simpl; [done|].
  by eexists.
Qed.



(** *** All groups *)

Lemma calls_says {A} (f : A → line) (l : list A) :
  calls (map (λ a, Say (f a)) l : list (event api line)) = [].
Proof. by induction l. Qed.







(** *** The exit status of the route tool *)


(** *** Dry runs and documents that are not valid *)





(** *** The default route *)

Lemma default_route_new (route_table : remote_table) :
  Some "0.0.0.0/0" ∉ existing_destinations route_table.
Proof. rewrite existing_destinations_spec. tauto. Qed.

(** C7: the destinations that exist, as [update_route_table] compares
    them, are those of the remote routes other than 0.0.0.0/0, and no
    others; so a desired route to 0.0.0.0/0 is always taken as new,
    whatever the table holds: a live run starts with its creation, a dry
    run counts it. *)
Theorem default_route_is_always_new (P : provider) (route_table : remote_table)
    (target : string) (rest : list Route) (n : nat) (s : state P) :
  (∀ d, d ∈ existing_destinations route_table
        ↔ d ∈ map destination_cidr_block (remote_routes route_table)
          ∧ d ≠ Some "0.0.0.0/0")
  ∧ is_new route_table (route_to "0.0.0.0/0" target) = true
  ∧ (∃ o s' t,
       update_loop P route_table (existing_destinations route_table) false
         (route_to "0.0.0.0/0" target :: rest) n s
       = (o, s',
          Call (CreateRoute (create_route_kwargs route_table (route_to "0.0.0.0/0" target)))
            (create_route_api P s
               (create_route_kwargs route_table (route_to "0.0.0.0/0" target))).1
            :: t))
  ∧ (∃ t,
       update_loop P route_table (existing_destinations route_table) true
         (route_to "0.0.0.0/0" target :: rest) n s
       = (Return
            (S n + length (filter (λ r, Some (destination r)
                                          ∉ existing_destinations route_table) rest)),
          s, Say (WouldCreateRoute "0.0.0.0/0" target) :: t)).
Proof.
  pose proof (default_route_new route_table) as Hnew.
  split; [apply existing_destinations_spec|].
  split; [by apply bool_decide_eq_true|].
  split.
  - simpl. unfold bind at 1. rewrite bool_decide_eq_true_2 by done. simpl.
    unfold bind at 1. rewrite create_route_eq. cbv zeta.
    destruct (create_route_api P s _) as [[[code| |w]|] s1]; simpl.
    + destruct (String.eqb code _); simpl;
        destruct (update_loop P _ _ false rest _ s1) as [[o2 s2] t2]; by eexists _, _, _.
    + by eexists _, _, _.
    + by eexists _, _, _.
    + destruct (update_loop P _ _ false rest _ s1) as [[o2 s2] t2]; by eexists _, _, _.
  - rewrite update_loop_dry. simpl. rewrite filter_cons.
    rewrite !decide_True by done. simpl. eexists. do 3 f_equal. lia.
Qed.

(** The table holds a default route, the document asks for one, and the
    live run asks the provider to create it. *)
Example default_route_created_again :
  let held := [through_gateway "0.0.0.0/0" "igw-abc"] in
  let r := update_route_table (in_memory no_faults) (rtb_1 [route_to "0.0.0.0/0" "igw-abc"])
             false (holding_rtb_1 held) in
  existing_destinations {| id := "rtb-1"; remote_routes := held |} = ∅
  ∧ calls r.2
    = [LoadRouteTable "rtb-1";
       CreateRoute [("RouteTableId", "rtb-1"); ("DestinationCidrBlock", "0.0.0.0/0");
                    ("GatewayId", "igw-abc")]].
Proof. split; reflexivity. Qed.

(** *** Two routes to one destination *)


(** *** The in-memory provider *)





(** *** Routes that exist already *)






(** *** Creations that the provider turns down *)




(** *** Documents that are not valid *)





(** The table rtb-2 is not there: the run stops after the two fetches of
    validation. *)
Example unknown_table_run :
  let r := route_manager.main (in_memory no_faults) plain_cidr (apply_arguments false) None
             (Loaded unknown_table) (holding_rtb_1 []) in
  r.1.1 = SysExit 1
  ∧ calls r.2 = [LoadRouteTable "rtb-1"; LoadRouteTable "rtb-2"]
  ∧ console r.2
    = [LoadingConfiguration "routes.yaml"; Validating; RouteTableNotFound "rtb-2"].
Proof. repeat split; reflexivity. Qed.

(** *** Dry runs of a group *)


(** *** Only what the document asks for *)

Lemma update_loop_asked (P : provider) route_table E dry rs n (s : state P) :
  Forall (λ c, ∃ route, route ∈ rs ∧ c = CreateRoute (create_route_kwargs route_table route))
    (calls (update_loop P route_table E dry rs n s).2).
Proof.
  destruct dry.
  - rewrite update_loop_dry. simpl. rewrite calls_says. constructor.
  - destruct (update_loop P route_table E false rs n s) as [[o s'] t] eqn:Eq.
    apply update_loop_live in Eq as ([k Hk] & _). simpl. rewrite Hk.
    apply Forall_forall. intros c Hc.
    apply list_elem_of_fmap in Hc as (route & -> & Hr).
    exists route. split; [|done].
    apply elem_of_take in Hr as (i & Hr & _).
    apply list_elem_of_lookup_2 in Hr.
    by apply list_elem_of_filter in Hr as [_ Hr].
Qed.

Lemma update_route_table_asked (P : provider) table dry (s : state P) :
  Forall (asked_for [table]) (calls (update_route_table P table dry s).2).
Proof.
  rewrite update_route_table_eq. cbv zeta.
  assert (asked_for [table] (LoadRouteTable (table_id table))) as Hload.
  { simpl. set_solver. }
  destruct (load_route_table P s (table_id table)) as [[code| |w]|rs]; simpl.
  - destruct (String.eqb code _); simpl; by repeat constructor.
  - by repeat constructor.
  - by repeat constructor.
  - pose proof (update_loop_asked P {| id := table_id table; remote_routes := rs |}
                  (existing_destinations {| id := table_id table; remote_routes := rs |})
                  dry (routes table) 0 s) as Hloop.
    assert (Forall (asked_for [table])
              (calls (update_loop P {| id := table_id table; remote_routes := rs |}
                        (existing_destinations {| id := table_id table; remote_routes := rs |})
                        dry (routes table) 0 s).2)) as Hloop'.
    { eapply Forall_impl; [exact Hloop|]. intros c (route & Hr & ->). simpl.
      exists table, route, rs. split; [set_solver|done]. }
    clear Hloop.
    destruct (update_loop P _ _ dry (routes table) 0 s) as [[[m|e|x] s'] t]; simpl in *;
      constructor; try done;
      destruct dry; simpl; rewrite ?calls_app; simpl; rewrite ?app_nil_r; done.
Qed.

Lemma asked_for_mono (ts ts' : list RouteTable) (c : api) :
  ts ⊆ ts' → asked_for ts c → asked_for ts' c.
Proof.
  intros Hs. destruct c as [tid|kwargs|tid d]; simpl; [| |done].
  - intros Hin. apply list_elem_of_fmap in Hin as (table & -> & Hin).
    apply list_elem_of_fmap. exists table. split; [done|]. by apply Hs.
  - intros (table & route & rs & Ht & Hr & ->). exists table, route, rs.
    split; [by apply Hs|done].
Qed.

Lemma process_route_tables_asked (P : provider) dry ts n (s : state P) :
  Forall (asked_for ts) (calls (process_route_tables P dry ts n s).2).
Proof.
  revert n s. induction ts as [|table rest IH]; intros n s; simpl; [constructor|].
  unfold bind at 1.
  pose proof (update_route_table_asked P table dry s) as H1.
  destruct (update_route_table P table dry s) as [[[ok|e|x] s1] t1]; simpl in *.
  - specialize (IH (if ok then S n else n) s1).
    destruct (process_route_tables P dry rest _ s1) as [[o2 s2] t2]. simpl in *.
    rewrite calls_app. apply Forall_app. split.
    + eapply Forall_impl; [exact H1|]. intros c. apply asked_for_mono. set_solver.
    + eapply Forall_impl; [exact IH|]. intros c. apply asked_for_mono. set_solver.
  - eapply Forall_impl; [exact H1|]. intros c. apply asked_for_mono. set_solver.
  - eapply Forall_impl; [exact H1|]. intros c. apply asked_for_mono. set_solver.
Qed.

Lemma validate_tables_asked (P : provider) IPv4Network ts (s : state P) :
  Forall (asked_for ts) (calls (validate_tables P IPv4Network ts s).2).
Proof.
  induction ts as [|table rest IH]; simpl; [constructor|].
  unfold bind at 1. rewrite get_route_table_eq.
  assert (asked_for (table :: rest) (LoadRouteTable (table_id table))) as Hload.
  { simpl. set_solver. }
  destruct (load_route_table P s (table_id table)) as [[code| |w]|rs]; simpl.
  - destruct (String.eqb code _); simpl; by repeat constructor.
  - by repeat constructor.
  - by repeat constructor.
  - unfold bind at 1.
    destruct (validate_routes_spec P IPv4Network (routes table) s) as (t1 & -> & H1).
    destruct (forallb _ (routes table)); simpl.
    + destruct (validate_tables P IPv4Network rest s) as [[o2 s2] t2]. simpl in *.
      constructor; [done|]. rewrite calls_app, H1. simpl.
      eapply Forall_impl; [exact IH|]. intros c. apply asked_for_mono. set_solver.
    + constructor; [done|]. rewrite app_nil_r, H1. constructor.
Qed.

Lemma validate_configuration_asked (P : provider) IPv4Network config (s : state P) :
  Forall (asked_for (route_tables config))
    (calls (route_manager.validate_configuration P IPv4Network config s).2).
Proof.
  unfold route_manager.validate_configuration. unfold bind at 1. simpl.
  unfold bind at 1.
  pose proof (validate_tables_asked P IPv4Network (route_tables config) s) as Hv.
  destruct (validate_tables P IPv4Network (route_tables config) s) as [[[[]|e|c] s1] t1];
    simpl in *; rewrite ?calls_app; simpl; by rewrite ?app_nil_r.
Qed.

(** The route tool calls the provider only for what the document names:
    whatever the options, the provider and its answers, every call of a
    run fetches a table of the document or creates a route of the
    document in the table it is listed under.  The tool never deletes a
    route: a route that is no longer in the document stays in its
    table. *)
Theorem only_routes_of_the_document (P : provider) (IPv4Network : string → bool)
    (args : arguments) (boto : option exn) (config : RouteConfiguration) (s : state P) :
  Forall (asked_for (route_tables config))
    (calls (route_manager.main P IPv4Network args boto (Loaded config) s).2).
Proof.
  unfold route_manager.main.
  apply calls_bind_Forall; [by destruct boto as [[code| |w]|]; repeat constructor|].
  intros _ s1 t1 _. apply calls_bind_Forall; [constructor|].
  intros _ s2 t2 _. apply calls_bind_Forall; [constructor|].
  intros c s3 t3 [= <- _ _]. apply calls_bind_Forall; [apply validate_configuration_asked|].
  intros ok s4 t4 _. destruct ok; simpl; [|constructor].
  destruct (validate_only args); [constructor|].
  apply calls_bind_Forall; [apply process_route_tables_asked|].
  intros m s5 t5 _. simpl. by destruct (dry_run args); constructor.
Qed.

(** *** From the keyword arguments back to the attributes *)

(** A route created by the tool reads back as the document has it: seen
    through a resource whose attributes are the keyword arguments of the
    creation, its destination and its target are those of the desired
    route.  Its target type is gateway not only for a target that starts
    with igw- but for every target that starts with none of nat-, pcx-
    and eni-. *)
Theorem created_route_reads_back (route_table : remote_table) (route : Route) :
  target route ≠ "" →
  let remote := route_of_kwargs (create_route_kwargs route_table route) in
  destination_cidr_block remote = Some (destination route)
  ∧ _get_route_target remote = target route
  ∧ _get_target_type remote
    = if startswith (target route) "igw-" then "gateway"
      else if startswith (target route) "nat-" then "nat"
      else if startswith (target route) "pcx-" then "vpc-peering"
      else if startswith (target route) "eni-" then "network-interface"
      else "gateway".
Proof.
  intros Ht remote. subst remote. unfold create_route_kwargs.
  destruct (target route) as [|c t] eqn:E; [done|]. rewrite <- E.
  assert (or_else (Some (target route)) "unknown" = target route) as Ho by by rewrite E.
  assert (truthy (Some (target route)) = true) as Hy by by rewrite E.
  destruct (startswith (target route) "igw-");
    [|destruct (startswith (target route) "nat-");
      [|destruct (startswith (target route) "pcx-");
        [|destruct (startswith (target route) "eni-")]]];
    unfold route_of_kwargs, _get_route_target, _get_target_type; cbn -[or_else truthy];
    rewrite ?Hy, ?Ho; done.
Qed.

Lemma created_route_reads_back_witness :
  let remote :=
    route_of_kwargs
      (create_route_kwargs {| id := "rtb-1"; remote_routes := [] |}
         (route_to "10.0.1.0/24" "tgw-0a1b")) in
  destination_cidr_block remote = Some "10.0.1.0/24"
  ∧ _get_route_target remote = "tgw-0a1b"
  ∧ _get_target_type remote = "gateway".
Proof.
  by apply (created_route_reads_back {| id := "rtb-1"; remote_routes := [] |}
              (route_to "10.0.1.0/24" "tgw-0a1b")).
Defined.

(** *** Runs on a valid document *)











(** *** Running a group twice *)







End routes.

(** ** Both tools *)



(** The provider turns the one route creation down and the route tool
    ends with status 0, after reporting 1 group out of 1. *)
Example route_rejection_exits_0 :
  let r := route_manager.main (route_manager.in_memory route_manager.creations_down)
             route_manager.plain_cidr (route_manager.apply_arguments false) None
             (route_manager.Loaded route_manager.one_route)
             (route_manager.holding_rtb_1 []) in
  r.1.1 = Return ()
  ∧ console r.2
    = [route_manager.LoadingConfiguration "routes.yaml"; route_manager.Validating;
       route_manager.ValidationPassed; route_manager.ProcessingRouteTable "rtb-1";
       route_manager.FailedCreateRoute "10.0.1.0/24"; route_manager.ProcessedRoutes 0;
       route_manager.SummaryHeader; route_manager.Summary 1 1;
       route_manager.UpdatesCompleted].
Proof. split; reflexivity. Qed.


